(** * Tractivity: the Timer and the InactivityMonitor of src/renderer/timer.ts

    JavaScript numbers are modelled as exact rationals [Q]; the values of
    the idle-time provider that are not finite numbers (NaN, +/-Infinity,
    non-number results) are a separate constructor of [JsVal].  Every
    [Date.now()] is an explicit clock argument. *)

From Stdlib Require Import QArith Qround Lqa List Bool ZArith Lia String Ascii DecimalString.
Import ListNotations.

Open Scope Q_scope.

(** ** Timer (timer.ts, lines 1-39) *)

Module Timer.

Record Timer := mkTimer {
  startTimestamp : option Q;   (* number | null *)
  accumulatedMs : Q
}.

Definition init : Timer := mkTimer None 0.

Definition isRunning (t : Timer) : bool :=
  match startTimestamp t with Some _ => true | None => false end.

(** [x ?? d], together with a flag telling whether the default [d] was the
    value taken. *)
Definition coalesce_traced (x : option Q) (d : Q) : Q * bool :=
  match x with Some v => (v, false) | None => (d, true) end.

Definition start (now : Q) (t : Timer) : Timer :=
  if isRunning t then t else mkTimer (Some now) (accumulatedMs t).

(** [pause], returning also whether [startTimestamp ?? 0] took its default
    (false when the coalescing is not evaluated). *)
Definition pause_traced (now : Q) (t : Timer) : Timer * bool :=
  if negb (isRunning t) then (t, false)
  else
    let (s, dflt) := coalesce_traced (startTimestamp t) 0 in
    (mkTimer None (accumulatedMs t + (now - s)), dflt).

Definition pause (now : Q) (t : Timer) : Timer := fst (pause_traced now t).

Definition reset (t : Timer) : Timer := mkTimer None 0.

Definition getElapsedMs_traced (now : Q) (t : Timer) : Q * bool :=
  if negb (isRunning t) then (accumulatedMs t, false)
  else
    let (s, dflt) := coalesce_traced (startTimestamp t) 0 in
    (accumulatedMs t + (now - s), dflt).

Definition getElapsedMs (now : Q) (t : Timer) : Q := fst (getElapsedMs_traced now t).

End Timer.

Import Timer (Timer, mkTimer, startTimestamp, accumulatedMs, isRunning).

(** ** The state and exception monad of the monitor *)

(** The values the idle-time provider can produce: a finite number, a
    number that is not finite (NaN, +/-Infinity), or a value whose
    [typeof] is not ['number']. *)
Inductive JsVal := JNum (q : Q) | JNonFinite | JNonNumber.

(** How the deferred result [Promise.resolve(idleResult)] settles. *)
Inductive PromiseOutcome := Resolves (v : JsVal) | Rejects.

(** One call [this.idleTimeProvider()]: it throws synchronously, returns
    a plain value, or returns a promise. *)
Inductive ProviderCall := PThrows | PReturns (v : JsVal) | PPromise (p : PromiseOutcome).

Inductive JsError := ProviderFailure.

(** Observable effects: a provider query, a [console.error], a call of
    [timer.start()] or [timer.pause()], and the evaluation of
    [this.onStateChange?.()]. *)
Inductive Event := EQuery | ELog | ETimerStart | ETimerPause | ENotify.

Definition Event_eqb (a b : Event) : bool :=
  match a, b with
  | EQuery, EQuery | ELog, ELog | ETimerStart, ETimerStart
  | ETimerPause, ETimerPause | ENotify, ENotify => true
  | _, _ => false
  end.

(** The fields of [InactivityMonitor] (timer.ts, lines 60-76). *)
Record Monitor := mkMonitor {
  pausedByIdle : bool;
  evaluating : bool;
  lastActivity : Q;
  lastSystemIdleMs : option Q;
  lastEffectiveIdleMs : Q;
  thresholdMs : Q;
  hasProvider : bool       (* idleTimeProvider !== undefined *)
}.

(** The monitor, the borrowed timer, the trace of effects, and the
    continuation of an [evaluate()] suspended at its [await]: the [now] it
    captured and how the awaited promise settles. *)
Record World := mkWorld {
  mon : Monitor;
  tmr : Timer;
  trace : list Event;
  pending : option (Q * PromiseOutcome)
}.

Inductive Res (A : Type) := Ok (a : A) | Thrown (e : JsError).
Arguments Ok {A} a.
Arguments Thrown {A} e.

Definition ST (A : Type) := World -> Res A * World.

Definition ret {A} (a : A) : ST A := fun w => (Ok a, w).

Definition bind {A B} (m : ST A) (k : A -> ST B) : ST B :=
  fun w => match m w with
           | (Ok a, w') => k a w'
           | (Thrown e, w') => (Thrown e, w')
           end.

Notation "x <- m ;; k" := (bind m (fun x => k))
  (at level 61, m at next level, right associativity).
Notation "m ;; k" := (bind m (fun _ => k))
  (at level 61, right associativity).

Definition raise {A} (e : JsError) : ST A := fun w => (Thrown e, w).

Definition try_catch {A} (m : ST A) (h : JsError -> ST A) : ST A :=
  fun w => match m w with
           | (Thrown e, w') => h e w'
           | r => r
           end.

Definition try_finally {A} (m : ST A) (f : ST unit) : ST A :=
  fun w => let (r, w') := m w in
           match f w' with
           | (Ok _, w'') => (r, w'')
           | (Thrown e, w'') => (Thrown e, w'')
           end.

Definition get_mon : ST Monitor := fun w => (Ok (mon w), w).

Definition modify_mon (f : Monitor -> Monitor) : ST unit :=
  fun w => (Ok tt, mkWorld (f (mon w)) (tmr w) (trace w) (pending w)).

Definition emit (e : Event) : ST unit :=
  fun w => (Ok tt, mkWorld (mon w) (tmr w) (trace w ++ [e]) (pending w)).

Definition set_pending (p : option (Q * PromiseOutcome)) : ST unit :=
  fun w => (Ok tt, mkWorld (mon w) (tmr w) (trace w) p).

Definition get_pending : ST (option (Q * PromiseOutcome)) :=
  fun w => (Ok (pending w), w).

(** The [TimerLike] capability, bound to the concrete [Timer]. *)
Definition timer_isRunning : ST bool := fun w => (Ok (isRunning (tmr w)), w).

Definition timer_start (clock : Q) : ST unit :=
  fun w => (Ok tt, mkWorld (mon w) (Timer.start clock (tmr w))
                           (trace w ++ [ETimerStart]) (pending w)).

Definition timer_pause (clock : Q) : ST unit :=
  fun w => (Ok tt, mkWorld (mon w) (Timer.pause clock (tmr w))
                           (trace w ++ [ETimerPause]) (pending w)).

Definition notify : ST unit := emit ENotify.

Definition log_error : ST unit := emit ELog.

(** Field updates of [Monitor]. *)
Definition set_pausedByIdle (b : bool) (m : Monitor) : Monitor :=
  mkMonitor b (evaluating m) (lastActivity m) (lastSystemIdleMs m)
            (lastEffectiveIdleMs m) (thresholdMs m) (hasProvider m).

Definition set_evaluating (b : bool) (m : Monitor) : Monitor :=
  mkMonitor (pausedByIdle m) b (lastActivity m) (lastSystemIdleMs m)
            (lastEffectiveIdleMs m) (thresholdMs m) (hasProvider m).

Definition set_lastActivity (t : Q) (m : Monitor) : Monitor :=
  mkMonitor (pausedByIdle m) (evaluating m) t (lastSystemIdleMs m)
            (lastEffectiveIdleMs m) (thresholdMs m) (hasProvider m).

Definition set_lastSystemIdleMs (x : option Q) (m : Monitor) : Monitor :=
  mkMonitor (pausedByIdle m) (evaluating m) (lastActivity m) x
            (lastEffectiveIdleMs m) (thresholdMs m) (hasProvider m).

Definition set_lastEffectiveIdleMs (x : Q) (m : Monitor) : Monitor :=
  mkMonitor (pausedByIdle m) (evaluating m) (lastActivity m) (lastSystemIdleMs m)
            x (thresholdMs m) (hasProvider m).


(** [x < y] on numbers. *)
Definition Qlt_bool (x y : Q) : bool := negb (Qle_bool y x).

(** ** InactivityMonitor (timer.ts, lines 60-169) *)

(** [new InactivityMonitor(timer, thresholdMs, idleTimeProvider, onStateChange)]
    at instant [clock]. *)
Definition construct (t : Timer) (clock threshold : Q) (provider : bool) : World :=
  mkWorld (mkMonitor false false clock None 0 threshold provider) t [] None.

(** [markActivity(timestamp)], lines 78-86; [clock] is [Date.now()]. *)
Definition markActivity (clock timestamp : Q) : ST unit :=
  modify_mon (set_lastActivity timestamp);;
  running <- timer_isRunning;;
  m <- get_mon;;
  if negb running && pausedByIdle m then
    modify_mon (set_pausedByIdle false);;
    timer_start clock;;
    notify
  else ret tt.

(** [const idleResult = this.idleTimeProvider()], as settled by
    [Promise.resolve(idleResult)]. *)
Definition callProvider (call : ProviderCall) : ST PromiseOutcome :=
  emit EQuery;;
  match call with
  | PThrows => raise ProviderFailure
  | PReturns v => ret (Resolves v)
  | PPromise p => ret p
  end.

(** [await p]: the settled value, or a throw for a rejected promise. *)
Definition await_outcome (p : PromiseOutcome) : ST JsVal :=
  match p with
  | Resolves v => ret v
  | Rejects => raise ProviderFailure
  end.

(** [typeof idleSeconds === 'number' && Number.isFinite(idleSeconds) &&
    idleSeconds >= 0 ? idleSeconds * 1000 : undefined]. *)
Definition idle_ms_of (idleSeconds : option JsVal) : option Q :=
  match idleSeconds with
  | Some (JNum q) => if Qle_bool 0 q then Some (q * 1000) else None
  | _ => None
  end.

(** Lines 115-129: the system signal refreshes [lastActivity], the effective
    idle time is computed and the diagnostics are cached. *)
Definition refresh (now : Q) (idleSeconds : option JsVal) : ST Q :=
  let idleMs := idle_ms_of idleSeconds in
  (match idleMs with
   | Some x =>
       m <- get_mon;;
       if Qlt_bool x (thresholdMs m) then modify_mon (set_lastActivity now)
       else ret tt
   | None => ret tt
   end);;
  m <- get_mon;;
  let elapsedSinceActivity := now - lastActivity m in
  let effectiveIdle := match idleMs with Some x => x | None => elapsedSinceActivity end in
  modify_mon (set_lastSystemIdleMs idleMs);;
  modify_mon (set_lastEffectiveIdleMs effectiveIdle);;
  ret effectiveIdle.

(** Lines 131-142: the automatic transition; [clock] is the [Date.now()]
    read by the timer. *)
Definition transition (now clock effectiveIdle : Q) : ST unit :=
  running <- timer_isRunning;;
  m <- get_mon;;
  if running then
    if Qle_bool (thresholdMs m) effectiveIdle then
      timer_pause clock;;
      modify_mon (set_pausedByIdle true);;
      notify
    else ret tt
  else if pausedByIdle m && Qlt_bool effectiveIdle (thresholdMs m) then
    modify_mon (set_pausedByIdle false);;
    timer_start clock;;
    modify_mon (set_lastActivity now);;
    notify
  else ret tt.

Definition decide (now clock : Q) (idleSeconds : option JsVal) : ST unit :=
  effectiveIdle <- refresh now idleSeconds;;
  transition now clock effectiveIdle.

Definition clear_guard : ST unit := modify_mon (set_evaluating false).

Inductive EvalStatus := Done | Suspended.

(** [try { body } finally { this.evaluating = false }] of an async body: the
    [finally] runs when the body completes, not when it suspends. *)
Definition async_try_finally (body : ST EvalStatus) (f : ST unit) : ST EvalStatus :=
  fun w => match body w with
           | (Ok Suspended, w') => (Ok Suspended, w')
           | (r, w') =>
               match f w' with
               | (Ok _, w'') => (r, w'')
               | (Thrown e, w'') => (Thrown e, w'')
               end
           end.

(** The body of [evaluate()] up to its [await] (lines 96-113). Without a
    provider, or when the provider throws, [idleResult] is absent and the
    body runs to its end without suspending. *)
Definition body_start (now : Q) (call : ProviderCall) : ST EvalStatus :=
  m <- get_mon;;
  idleResult <-
    (if hasProvider m then
       try_catch (p <- callProvider call;; ret (Some p))
                 (fun _ => log_error;; ret None)
     else ret None);;
  match idleResult with
  | Some p => set_pending (Some (now, p));; ret Suspended
  | None => decide now now None;; ret Done
  end.

(** [evaluate()] from its call to its first suspension or its end
    (lines 88-95); [now] is the instant it reads. *)
Definition evaluate_start (now : Q) (call : ProviderCall) : ST EvalStatus :=
  m <- get_mon;;
  if evaluating m then ret Done
  else
    modify_mon (set_evaluating true);;
    async_try_finally (body_start now call) clear_guard.

(** The continuation of a suspended [evaluate()], once the awaited promise
    settles (lines 110-145); [clock] is the instant it resumes at. *)
Definition body_resume (now clock : Q) (p : PromiseOutcome) : ST unit :=
  set_pending None;;
  idleSeconds <-
    try_catch (v <- await_outcome p;; ret (Some v))
              (fun _ => log_error;; ret None);;
  decide now clock idleSeconds.

Definition evaluate_resume (clock : Q) : ST unit :=
  pend <- get_pending;;
  match pend with
  | Some (now, p) => try_finally (body_resume now clock p) clear_guard
  | None => ret tt
  end.

(** A whole [evaluate()] with nothing interleaved at its [await]. *)
Definition evaluate (now clock : Q) (call : ProviderCall) : ST unit :=
  st <- evaluate_start now call;;
  match st with
  | Suspended => evaluate_resume clock
  | Done => ret tt
  end.

(** [clearAutoPause()], lines 148-156. *)
Definition clearAutoPause (clock : Q) : ST unit :=
  modify_mon (set_lastActivity clock);;
  modify_mon (set_lastEffectiveIdleMs 0);;
  m <- get_mon;;
  if pausedByIdle m then
    modify_mon (set_pausedByIdle false);;
    notify
  else ret tt.

(** The states reachable from construction by the monitor's operations,
    with any interleaving at the [await] of [evaluate()]. *)
Inductive reachable : World -> Prop :=
| reach_init t clock thr prov : reachable (construct t clock thr prov)
| reach_mark w clock ts : reachable w -> reachable (snd (markActivity clock ts w))
| reach_eval_start w now call :
    reachable w -> reachable (snd (evaluate_start now call w))
| reach_eval_resume w clock :
    reachable w -> reachable (snd (evaluate_resume clock w))
| reach_clear w clock : reachable w -> reachable (snd (clearAutoPause clock w)).

(** Successive whole [evaluate()] calls, one per polling tick, each at the
    instant given in [ts], the provider behaving as [call] at each tick. *)
Fixpoint run_evals (call : ProviderCall) (ts : list Q) : ST unit :=
  match ts with
  | [] => ret tt
  | t :: ts' => evaluate t t call;; run_evals call ts'
  end.

(** The events of a trace that are automatic transitions. *)
Definition is_transition_event (e : Event) : bool :=
  match e with ETimerStart | ETimerPause | ENotify => true | _ => false end.




(** [w'] differs from [w] at most in the cached diagnostics. *)
Definition unchanged_but_diagnostics (w w' : World) : Prop :=
  tmr w' = tmr w /\ trace w' = trace w /\ pending w' = pending w /\
  pausedByIdle (mon w') = pausedByIdle (mon w) /\
  evaluating (mon w') = evaluating (mon w) /\
  lastActivity (mon w') = lastActivity (mon w) /\
  thresholdMs (mon w') = thresholdMs (mon w) /\
  hasProvider (mon w') = hasProvider (mon w).

(** ** The [enabled] gate and the configuration mutators *)

(** Modelled from the spec: src/renderer/inactivityMonitor.ts, the module
    that src/renderer/index.ts imports, with [setEnabled(bool)],
    [setThresholdMs(ms)] and the [enabled] flag that "gates all automatic
    transitions": [evaluate()] runs steps 1-5 as in timer.ts and performs
    the step-6 transition only if [enabled]. *)
Module AfkGate.

Record GMonitor := mkGMonitor {
  base : World;
  enabled : bool
}.



Definition decide (en : bool) (now clock : Q) (idleSeconds : option JsVal) : ST unit :=
  effectiveIdle <- refresh now idleSeconds;;
  if en then transition now clock effectiveIdle else ret tt.

Definition body_start (en : bool) (now : Q) (call : ProviderCall) : ST EvalStatus :=
  m <- get_mon;;
  idleResult <-
    (if hasProvider m then
       try_catch (p <- callProvider call;; ret (Some p))
                 (fun _ => log_error;; ret None)
     else ret None);;
  match idleResult with
  | Some p => set_pending (Some (now, p));; ret Suspended
  | None => decide en now now None;; ret Done
  end.

Definition evaluate_start_st (en : bool) (now : Q) (call : ProviderCall) : ST EvalStatus :=
  m <- get_mon;;
  if evaluating m then ret Done
  else
    modify_mon (set_evaluating true);;
    async_try_finally (body_start en now call) clear_guard.

Definition body_resume (en : bool) (now clock : Q) (p : PromiseOutcome) : ST unit :=
  set_pending None;;
  idleSeconds <-
    try_catch (v <- await_outcome p;; ret (Some v))
              (fun _ => log_error;; ret None);;
  decide en now clock idleSeconds.

Definition evaluate_resume_st (en : bool) (clock : Q) : ST unit :=
  pend <- get_pending;;
  match pend with
  | Some (now, p) => try_finally (body_resume en now clock p) clear_guard
  | None => ret tt
  end.

Definition evaluate_st (en : bool) (now clock : Q) (call : ProviderCall) : ST unit :=
  st <- evaluate_start_st en now call;;
  match st with
  | Suspended => evaluate_resume_st en clock
  | Done => ret tt
  end.

(** The operations on a [GMonitor]: [enabled] is read when [evaluate()]
    runs. *)
Definition lift {A} (m : bool -> ST A) (g : GMonitor) : Res A * GMonitor :=
  let (r, w') := m (enabled g) (base g) in (r, mkGMonitor w' (enabled g)).

Definition evaluate_start (now : Q) (call : ProviderCall) (g : GMonitor) :=
  lift (fun en => evaluate_start_st en now call) g.

Definition evaluate_resume (clock : Q) (g : GMonitor) :=
  lift (fun en => evaluate_resume_st en clock) g.

Definition evaluate (now clock : Q) (call : ProviderCall) (g : GMonitor) :=
  lift (fun en => evaluate_st en now clock call) g.

(** [markActivity(timestamp)] and [clearAutoPause()]: the spec gates only
    step 6 of [evaluate()], and describes both as in timer.ts (the body
    below names the operations of timer.ts defined above). *)
Definition markActivity (clock timestamp : Q) (g : GMonitor) :=
  lift (fun _ => markActivity clock timestamp) g.

Definition clearAutoPause (clock : Q) (g : GMonitor) :=
  lift (fun _ => clearAutoPause clock) g.





End AfkGate.

(** ** formatElapsed (timer.ts, lines 41-50) *)

Module Format.

Local Open Scope Z_scope.
Local Open Scope string_scope.

(** [value.toString()] of an integer-valued number (decimal, with a leading
    ['-'] when negative; exact below 1e21, where JavaScript switches to
    exponent notation). *)
Definition toString (z : Z) : string := NilZero.string_of_int (Z.to_int z).

Definition pad (value : Z) : string :=
  if Z.ltb value 10 then "0" ++ toString value else toString value.

(** [Math.floor(a / b)] for an integer [a] and [b > 0] is [Z.div a b]; the
    remainder [%] of JavaScript truncates, as [Z.rem]. *)
Definition formatElapsed (milliseconds : Q) : string :=
  let totalSeconds := Qfloor (milliseconds / 1000)%Q in
  let hours := Z.div totalSeconds 3600 in
  let minutes := Z.div (Z.rem totalSeconds 3600) 60 in
  let seconds := Z.rem totalSeconds 60 in
  pad hours ++ ":" ++ pad minutes ++ ":" ++ pad seconds.

(** Reading a display ["HH:MM:SS"] back as a number of seconds; not part
    of the source, it states what the display shows. *)
Definition digit_val (c : ascii) : option Z :=
  match NilEmpty.uint_of_string (String c EmptyString) with
  | Some d => Some (Z.of_uint d)
  | None => None
  end.

Definition two_digits (a b : ascii) : option Z :=
  match digit_val a, digit_val b with
  | Some x, Some y => Some (10 * x + y)
  | _, _ => None
  end.

Definition parse_hms (s : string) : option Z :=
  match s with
  | String h1 (String h2 (String c1 (String m1 (String m2 (String c2
      (String s1 (String s2 EmptyString))))))) =>
      if Ascii.eqb c1 ":" && Ascii.eqb c2 ":" then
        match two_digits h1 h2, two_digits m1 m2, two_digits s1 s2 with
        | Some h, Some m, Some sec => Some (h * 3600 + m * 60 + sec)
        | _, _, _ => None
        end
      else None
  | _ => None
  end.

End Format.

(** ** Sequences of Timer operations *)

Inductive TimerOp := TStart | TPause | TReset.

Definition timer_step (clock : Q) (op : TimerOp) (t : Timer) : Timer :=
  match op with
  | TStart => Timer.start clock t
  | TPause => Timer.pause clock t
  | TReset => Timer.reset t
  end.

(** The operations, each with the [Date.now()] it reads. *)
Fixpoint run_timer (ops : list (Q * TimerOp)) (t : Timer) : Timer :=
  match ops with
  | [] => t
  | (c, op) :: ops' => run_timer ops' (timer_step c op t)
  end.

(** The clock never goes back, starting from [c0]. *)
Fixpoint clocks_from (c0 : Q) (ops : list (Q * TimerOp)) : Prop :=
  match ops with
  | [] => True
  | (c, _) :: ops' => c0 <= c /\ clocks_from c ops'
  end.

Fixpoint last_clock (c0 : Q) (ops : list (Q * TimerOp)) : Q :=
  match ops with
  | [] => c0
  | (c, _) :: ops' => last_clock c ops'
  end.

(** A timer whose total is non-negative and whose start lies at or before
    instant [c]. *)
Definition timer_sane (c : Q) (t : Timer) : Prop :=
  0 <= accumulatedMs t /\
  match startTimestamp t with Some s => s <= c | None => True end.

(** ** The settings of src/renderer/index.ts (lines 86-134, 324-349) *)

Module Settings.

(** A JavaScript number. *)
Inductive Num := Fin (q : Q) | NaN | PosInf | NegInf.

Definition isFinite (n : Num) : bool := match n with Fin _ => true | _ => false end.

(** The delay is an integer number of seconds in every state the code
    builds ([DEFAULT_SETTINGS] and [clampIdleDelaySeconds]). *)
Record SettingsState := mkSettings {
  afkHandlingEnabled : bool;
  afkIdleDelaySeconds : Z
}.

Definition DEFAULT_IDLE_DELAY_SECONDS : Z := 60.

Definition DEFAULT_SETTINGS : SettingsState := mkSettings true DEFAULT_IDLE_DELAY_SECONDS.

(** [Math.round(x)] of a finite [x]: [Math.floor(x + 0.5)]. *)
Definition js_round (q : Q) : Z := Qfloor (q + (1 # 2)).

Definition clampIdleDelaySeconds (value : Num) : Z :=
  match value with
  | Fin q => Z.min 1800 (Z.max 1 (js_round q))
  | _ => afkIdleDelaySeconds DEFAULT_SETTINGS
  end.

(** What [loadSettings] finds: nothing ([getItem] gives null or ['']), a
    failure ([getItem] or [JSON.parse] throws), or a parsed object, given by
    its [afkHandlingEnabled] field when that is a boolean and by
    [parsedIdle]: the stored number when its [typeof] is ['number'], else
    [Number.parseInt(String(parsed.afkIdleDelaySeconds ?? ''), 10)]. *)
Inductive Stored := NoRaw | ReadFails | Parsed (enabledField : option bool) (parsedIdle : Num).

Definition loadSettings (st : Stored) : SettingsState :=
  match st with
  | NoRaw | ReadFails => DEFAULT_SETTINGS
  | Parsed enabledField parsedIdle =>
      let afkHandlingEnabled :=
        match enabledField with
        | Some b => b
        | None => afkHandlingEnabled DEFAULT_SETTINGS
        end in
      let afkIdleDelaySeconds :=
        if isFinite parsedIdle then clampIdleDelaySeconds parsedIdle
        else afkIdleDelaySeconds DEFAULT_SETTINGS in
      mkSettings afkHandlingEnabled afkIdleDelaySeconds
  end.

(** What [JSON.parse] reads back from [persistSettings(settings)]: a
    boolean and an integer number. *)
Definition stored_of (s : SettingsState) : Stored :=
  Parsed (Some (afkHandlingEnabled s)) (Fin (inject_Z (afkIdleDelaySeconds s))).

(** The input of [commitThresholdChange]: a blank trimmed value, or the
    result of [Number.parseInt(rawValue, 10)]. *)
Inductive ThresholdInput := BlankInput | ParsedInput (n : Num).

(** The new settings, or [None] when the handler only re-syncs the form and
    returns. *)
Definition commitThresholdChange (inp : ThresholdInput) (s : SettingsState)
    : option SettingsState :=
  match inp with
  | BlankInput => None
  | ParsedInput NaN => None
  | ParsedInput n => Some (mkSettings (afkHandlingEnabled s) (clampIdleDelaySeconds n))
  end.

End Settings.

(** ** The timer controls of src/renderer/index.ts (lines 211-246) *)

(** [timer.reset()], called directly by the UI (not through [TimerLike]). *)
Definition timer_reset : ST unit :=
  fun w => (Ok tt, mkWorld (mon w) (Timer.reset (tmr w)) (trace w) (pending w)).

(** [handleUserActivity()]: [markActivity()] at the current instant (the
    rendering it also does is not modelled). *)
Definition handleUserActivity (clock : Q) : ST unit := markActivity clock clock.

(** The click handler of the start/pause button. *)
Definition onStartPauseClick (clock : Q) : ST unit :=
  running <- timer_isRunning;;
  (if running then
     timer_pause clock;;
     clearAutoPause clock
   else
     timer_start clock;;
     clearAutoPause clock);;
  handleUserActivity clock.

(** The click handler of the reset button. *)
Definition onResetClick (clock : Q) : ST unit :=
  timer_reset;;
  clearAutoPause clock;;
  handleUserActivity clock.

(** The states reachable when the UI buttons are also used. *)
Inductive reachable_ui : World -> Prop :=
| ui_init t clock thr prov : reachable_ui (construct t clock thr prov)
| ui_mark w clock ts : reachable_ui w -> reachable_ui (snd (markActivity clock ts w))
| ui_eval_start w now call :
    reachable_ui w -> reachable_ui (snd (evaluate_start now call w))
| ui_eval_resume w clock :
    reachable_ui w -> reachable_ui (snd (evaluate_resume clock w))
| ui_clear w clock : reachable_ui w -> reachable_ui (snd (clearAutoPause clock w))
| ui_start_pause w clock : reachable_ui w -> reachable_ui (snd (onStartPauseClick clock w))
| ui_reset w clock : reachable_ui w -> reachable_ui (snd (onResetClick clock w)).

(** The same monitor without an idle-time provider. *)
Definition without_provider (w : World) : World :=
  let m := mon w in
  mkWorld (mkMonitor (pausedByIdle m) (evaluating m) (lastActivity m) (lastSystemIdleMs m)
                     (lastEffectiveIdleMs m) (thresholdMs m) false)
          (tmr w) (trace w) (pending w).

(** A provider answer that [evaluate()] does not trust: a throw, a
    rejection, a value that is not a finite number, or a negative one. *)
Definition invalid_answer (call : ProviderCall) : Prop :=
  idle_ms_of (match call with
              | PThrows | PPromise Rejects => None
              | PReturns v | PPromise (Resolves v) => Some v
              end) = None.

(** A timer paused by the user: stopped, and not by the monitor. *)
Definition manually_paused (w : World) : Prop :=
  isRunning (tmr w) = false /\ pausedByIdle (mon w) = false.

(** Whether [pad v] is two characters that read back as [v]. *)
Definition pad_check (v : Z) : bool :=
  match Format.pad v with
  | String a (String b EmptyString) =>
      match Format.two_digits a b with Some x => Z.eqb x v | None => false end
  | _ => false
  end.

(** ** Concrete scenarios (threshold 1000 ms) *)

(** A running timer started at 0, a monitor built at 0 without provider. *)
Definition scenario_local : World :=
  construct (Timer.start 0 Timer.init) 0 1000 false.

(** The same monitor after [markActivity(0)] and an [evaluate()] at 1500. *)
Definition scenario_autopaused : World :=
  snd (evaluate_start 1500 PThrows (snd (markActivity 0 0 scenario_local))).

(** A monitor with a provider, suspended in an [evaluate()] started at 0. *)
Definition scenario_suspended : World :=
  snd (evaluate_start 0 (PPromise (Resolves (JNum 5)))
         (construct (Timer.start 0 Timer.init) 0 1000 true)).

(** The spec-modelled monitor with the gate off, without and with a
    provider. *)
Definition scenario_disabled : AfkGate.GMonitor :=
  AfkGate.mkGMonitor scenario_local false.


(** ** Theorems *)

(** *** Proof tools *)

Ltac st_unfold :=
  unfold markActivity, clearAutoPause, evaluate, evaluate_start, evaluate_resume,
    body_start, body_resume, decide, refresh, transition, async_try_finally,
    try_finally, try_catch, callProvider, await_outcome, clear_guard,
    notify, log_error, timer_isRunning, timer_start, timer_pause, Qlt_bool,
    bind, ret, raise, get_mon, modify_mon, emit, set_pending, get_pending,
    Timer.isRunning, Timer.start, Timer.pause, Timer.pause_traced,
    Timer.coalesce_traced, set_pausedByIdle, set_evaluating, set_lastActivity,
    set_lastSystemIdleMs, set_lastEffectiveIdleMs in *.

(** Split on every test the unfolded code makes. *)
Ltac st_split :=
  repeat (cbn in *; match goal with
  | |- context [if ?b then _ else _] => destruct b eqn:?
  | |- context [match ?x with Some _ => _ | None => _ end] => destruct x eqn:?
  | |- context [match ?x with Resolves _ => _ | Rejects => _ end] => destruct x eqn:?
  | |- context [match ?x with JNum _ => _ | JNonFinite => _ | JNonNumber => _ end] =>
      destruct x eqn:?
  | |- context [match ?x with (_, _) => _ end] => destruct x eqn:?
  end); cbn in *.

Lemma Qle_bool_false (x y : Q) : Qle_bool x y = false -> y < x.
Proof.
  intros H; apply Qnot_le_lt; intros H'; apply Qle_bool_iff in H'; congruence.
Qed.

(** Turn the decided comparisons into hypotheses on [Q]. *)
Ltac q_facts :=
  repeat match goal with
  | H : negb _ = true |- _ => apply negb_true_iff in H
  | H : negb _ = false |- _ => apply negb_false_iff in H
  | H : Qle_bool _ _ = true |- _ => apply Qle_bool_iff in H
  | H : Qle_bool _ _ = false |- _ => apply Qle_bool_false in H
  end.

Ltac st_finish :=
  q_facts; first [ solve [intuition auto; try congruence]
                 | exfalso; lra
                 | repeat split; try reflexivity; try congruence; try lra ].

Ltac st_crush := st_unfold; st_split; st_finish.

(** Split first on the comparisons of numbers, which are atomic. *)
Ltac st_split_q :=
  repeat (cbn in *; match goal with
  | |- context [Qle_bool ?a ?b] => destruct (Qle_bool a b) eqn:?
  end).

Lemma run_evals_app (call : ProviderCall) (l1 l2 : list Q) (w : World) :
  run_evals call (l1 ++ l2) w =
  match run_evals call l1 w with
  | (Ok _, w1) => run_evals call l2 w1
  | (Thrown e, w1) => (Thrown e, w1)
  end.
Proof.
  revert w; induction l1 as [|t l1 IH]; intros w; [reflexivity|].
  cbn [app run_evals]; unfold bind.
  destruct (evaluate t t call w) as [[a|e] w1]; cbn; [|reflexivity].
  apply IH.
Qed.

(** The pausedByIdle/timer invariant is preserved by every operation. *)
Definition paused_inv (w : World) : Prop :=
  pausedByIdle (mon w) = true -> isRunning (tmr w) = false.

Lemma markActivity_paused_inv w clock ts :
  paused_inv w -> paused_inv (snd (markActivity clock ts w)).
Proof.
  destruct w as [[pb ev la ls le th hp] [[s|] acc] tr pe]; unfold paused_inv; st_crush.
Qed.

Lemma clearAutoPause_paused_inv w clock :
  paused_inv w -> paused_inv (snd (clearAutoPause clock w)).
Proof.
  destruct w as [[pb ev la ls le th hp] [[s|] acc] tr pe]; unfold paused_inv; st_crush.
Qed.

Lemma evaluate_start_paused_inv w now call :
  paused_inv w -> paused_inv (snd (evaluate_start now call w)).
Proof.
  destruct w as [[pb ev la ls le th hp] [[s|] acc] tr pe];
    destruct call as [|v|[v|]]; unfold paused_inv; st_crush.
Qed.

Lemma evaluate_resume_paused_inv w clock :
  paused_inv w -> paused_inv (snd (evaluate_resume clock w)).
Proof.
  destruct w as [[pb ev la ls le th hp] [[s|] acc] tr pe]; unfold paused_inv; st_crush.
Qed.

Lemma reachable_paused_inv w : reachable w -> paused_inv w.
Proof.
  induction 1.
  - unfold paused_inv; cbn; discriminate.
  - now apply markActivity_paused_inv.
  - now apply evaluate_start_paused_inv.
  - now apply evaluate_resume_paused_inv.
  - now apply clearAutoPause_paused_inv.
Qed.

(** The guard is held exactly while a suspended evaluation is pending. *)
Lemma reachable_guard_pending w :
  reachable w -> evaluating (mon w) = match pending w with Some _ => true | None => false end.
Proof.
  induction 1 as [t clock thr prov|w clock ts H IH|w now call H IH|w clock H IH|w clock H IH].
  - reflexivity.
  - destruct w as [[pb ev la ls le th hp] [[s|] acc] tr pe]; cbn in IH; subst ev; st_crush.
  - destruct w as [[pb ev la ls le th hp] [[s|] acc] tr pe]; cbn in IH; subst ev;
      destruct call as [|v|[v|]]; st_crush.
  - destruct w as [[pb ev la ls le th hp] [[s|] acc] tr pe]; cbn in IH; subst ev; st_crush.
  - destruct w as [[pb ev la ls le th hp] [[s|] acc] tr pe]; cbn in IH; subst ev; st_crush.
Qed.

(** One polling tick without a provider, for the three situations of an
    idle period. *)
Lemma tick_active_quiet w n call :
  hasProvider (mon w) = false -> evaluating (mon w) = false ->
  isRunning (tmr w) = true -> n - lastActivity (mon w) < thresholdMs (mon w) ->
  fst (evaluate n n call w) = Ok tt /\
  unchanged_but_diagnostics w (snd (evaluate n n call w)).
Proof.
  destruct w as [[pb ev la ls le th hp] [[s|] acc] tr pe]; cbn;
    intros Hp He Hr Hlt; subst; try discriminate; unfold unchanged_but_diagnostics; st_crush.
Qed.

Lemma tick_pause w n call :
  hasProvider (mon w) = false -> evaluating (mon w) = false ->
  isRunning (tmr w) = true -> thresholdMs (mon w) <= n - lastActivity (mon w) ->
  let w' := snd (evaluate n n call w) in
  fst (evaluate n n call w) = Ok tt /\
  trace w' = trace w ++ [ETimerPause; ENotify] /\
  isRunning (tmr w') = false /\ pausedByIdle (mon w') = true /\
  evaluating (mon w') = false /\ lastActivity (mon w') = lastActivity (mon w) /\
  thresholdMs (mon w') = thresholdMs (mon w) /\ hasProvider (mon w') = false.
Proof.
  destruct w as [[pb ev la ls le th hp] [[s|] acc] tr pe]; cbn;
    intros Hp He Hr Hle; subst; try discriminate; st_crush.
  rewrite <- app_assoc; reflexivity.
Qed.

Lemma tick_paused_quiet w n call :
  hasProvider (mon w) = false -> evaluating (mon w) = false ->
  isRunning (tmr w) = false -> pausedByIdle (mon w) = true ->
  thresholdMs (mon w) <= n - lastActivity (mon w) ->
  fst (evaluate n n call w) = Ok tt /\
  unchanged_but_diagnostics w (snd (evaluate n n call w)).
Proof.
  destruct w as [[pb ev la ls le th hp] [[s|] acc] tr pe]; cbn;
    intros Hp He Hr Hpb Hle; subst; try discriminate; unfold unchanged_but_diagnostics; st_crush.
Qed.

(** C9: [reset] sets [accumulatedMs] to 0 and clears [startTimestamp]
    whatever the state (an in-progress interval is dropped, so the elapsed
    time right after [reset] is 0 even for a running timer), while [pause]
    of a running timer adds [now - startTimestamp] to [accumulatedMs]. *)
Theorem reset_drops_interval_pause_folds :
  forall (t : Timer) (now : Q),
    Timer.reset t = mkTimer None 0 /\
    Timer.getElapsedMs now (Timer.reset t) = 0 /\
    Timer.pause now t =
      match startTimestamp t with
      | Some s => mkTimer None (accumulatedMs t + (now - s))
      | None => t
      end.
Proof.
  intros [[s|] acc] now; repeat split; reflexivity.
Qed.

(** C10: whenever [pause] or [getElapsedMs] evaluates [startTimestamp ?? 0]
    (i.e. after their [isRunning()] check has passed), [startTimestamp] is
    present, so the default 0 is never taken, in every timer state. *)
Theorem coalesce_default_unreachable :
  forall (t : Timer) (now : Q),
    snd (Timer.pause_traced now t) = false /\
    snd (Timer.getElapsedMs_traced now t) = false /\
    (Timer.isRunning t = true <-> startTimestamp t <> None).
Proof.
  intros [[s|] acc] now; cbn; repeat split; try reflexivity; try congruence.
Qed.

(** *** Claims on the InactivityMonitor of timer.ts *)

(** C2: in every state reachable from construction by [markActivity],
    [evaluate] (with any interleaving at its [await]) and [clearAutoPause],
    [pausedByIdle] implies that the timer is not running. *)
Theorem paused_by_idle_implies_not_running (w : World) :
  reachable w -> pausedByIdle (mon w) = true -> isRunning (tmr w) = false.
Proof.
  intros H; exact (reachable_paused_inv w H).
Qed.

(** C3: [evaluate()] never throws or rejects, whatever the provider does,
    and the guard it sets is cleared when it completes: after the part up
    to the [await] the guard is set only if it was already set or the call
    suspended, the resumption always clears it, and in a reachable state
    the guard is set only while a suspended evaluation is pending. *)
Theorem evaluate_never_fails_guard_cleared (w : World) :
  reachable w ->
  forall (now clock : Q) (call : ProviderCall),
    (evaluating (mon w) = true <-> pending w <> None) /\
    (exists st, fst (evaluate_start now call w) = Ok st) /\
    evaluating (mon (snd (evaluate_start now call w))) =
      match fst (evaluate_start now call w) with
      | Ok Suspended => true
      | _ => evaluating (mon w)
      end /\
    fst (evaluate_resume clock w) = Ok tt /\
    evaluating (mon (snd (evaluate_resume clock w))) = false /\
    fst (evaluate now clock call w) = Ok tt.
Proof.
  intros Hr now clock call.
  pose proof (reachable_guard_pending w Hr) as Hg.
  destruct w as [[pb ev la ls le th hp] [[s|] acc] tr pe]; cbn in Hg; subst ev;
    destruct call as [|v|[v|]]; st_unfold; st_split; q_facts;
    repeat split; try reflexivity; try congruence; eauto;
    try (intros H; exfalso; apply H; discriminate).
Qed.

(** C4: an [evaluate()] made while the guard is set returns at once and
    leaves the whole state unchanged: no provider query, no field or timer
    update, no notification, and no queued work. *)
Theorem evaluate_reentrant_noop (w : World) (now clock : Q) (call : ProviderCall) :
  evaluating (mon w) = true ->
  evaluate_start now call w = (Ok Done, w) /\ evaluate now clock call w = (Ok tt, w).
Proof.
  intros H; unfold evaluate, evaluate_start, bind, get_mon, ret; rewrite H; auto.
Qed.

(** C5: without a provider, from a running timer, with no activity after
    [lastActivity]: the ticks before [lastActivity + thresholdMs] change
    nothing, the first tick at or after it pauses the timer and notifies
    once, and the later ticks while still idle add no pause and no
    notification. *)
Theorem auto_pause_exactly_once (w : World) (call : ProviderCall)
    (before : list Q) (t : Q) (after : list Q) :
  0 < thresholdMs (mon w) ->
  hasProvider (mon w) = false -> evaluating (mon w) = false ->
  isRunning (tmr w) = true ->
  Forall (fun u => u - lastActivity (mon w) < thresholdMs (mon w)) before ->
  thresholdMs (mon w) <= t - lastActivity (mon w) ->
  Forall (fun u => thresholdMs (mon w) <= u - lastActivity (mon w)) after ->
  trace (snd (run_evals call before w)) = trace w /\
  trace (snd (run_evals call (before ++ [t]) w)) = trace w ++ [ETimerPause; ENotify] /\
  trace (snd (run_evals call (before ++ t :: after) w)) = trace w ++ [ETimerPause; ENotify] /\
  pausedByIdle (mon (snd (run_evals call (before ++ t :: after) w))) = true /\
  isRunning (tmr (snd (run_evals call (before ++ t :: after) w))) = false.
Proof.
  intros _ Hp He Hr Hb Ht Ha.
  (* the ticks before the threshold *)
  assert (Hbefore : fst (run_evals call before w) = Ok tt /\
                    unchanged_but_diagnostics w (snd (run_evals call before w))).
  { clear Ht Ha. revert w Hp He Hr Hb; induction before as [|u us IH]; intros w Hp He Hr Hb.
    - repeat split; reflexivity.
    - inversion Hb as [|? ? Hu Hus]; subst.
      destruct (tick_active_quiet w u call Hp He Hr Hu) as [Hok Hf].
      destruct (evaluate u u call w) as [r w1] eqn:E; cbn in Hok; subst r.
      assert (Hstep : run_evals call (u :: us) w = run_evals call us w1)
        by (cbn [run_evals]; unfold bind; rewrite E; reflexivity).
      rewrite Hstep.
      cbn in Hf; destruct Hf as (F1 & F2 & F3 & F4 & F5 & F6 & F7 & F8).
      rewrite <- F6, <- F7 in Hus.
      destruct (IH w1 ltac:(congruence) ltac:(congruence) ltac:(congruence) Hus)
        as [Hok' (G1 & G2 & G3 & G4 & G5 & G6 & G7 & G8)].
      split; [exact Hok'|]; unfold unchanged_but_diagnostics.
      repeat split; congruence. }
  destruct Hbefore as [Hok1 (F1 & F2 & F3 & F4 & F5 & F6 & F7 & F8)].
  set (w1 := snd (run_evals call before w)) in *.
  assert (Hrun1 : run_evals call before w = (Ok tt, w1)).
  { unfold w1; destruct (run_evals call before w); cbn in *; congruence. }
  (* the first tick at or after the threshold *)
  assert (Ht1 : thresholdMs (mon w1) <= t - lastActivity (mon w1)) by (rewrite F6, F7; exact Ht).
  destruct (tick_pause w1 t call ltac:(congruence) ltac:(congruence) ltac:(congruence) Ht1)
    as (Hok2 & P1 & P2 & P3 & P4 & P5 & P6 & P7).
  set (w2 := snd (evaluate t t call w1)) in *.
  assert (Hrun2 : evaluate t t call w1 = (Ok tt, w2)).
  { unfold w2; destruct (evaluate t t call w1); cbn in *; congruence. }
  (* the later ticks *)
  assert (Hafter : forall us w3,
    Forall (fun u => thresholdMs (mon w3) <= u - lastActivity (mon w3)) us ->
    hasProvider (mon w3) = false -> evaluating (mon w3) = false ->
    isRunning (tmr w3) = false -> pausedByIdle (mon w3) = true ->
    fst (run_evals call us w3) = Ok tt /\
    unchanged_but_diagnostics w3 (snd (run_evals call us w3))).
  { induction us as [|u us IH]; intros w3 Hus Hp3 He3 Hr3 Hpb3.
    - repeat split; reflexivity.
    - inversion Hus as [|? ? Hu Hus']; subst.
      destruct (tick_paused_quiet w3 u call Hp3 He3 Hr3 Hpb3 Hu) as [Hok Hf].
      destruct (evaluate u u call w3) as [r w4] eqn:E; cbn in Hok; subst r.
      assert (Hstep : run_evals call (u :: us) w3 = run_evals call us w4)
        by (cbn [run_evals]; unfold bind; rewrite E; reflexivity).
      rewrite Hstep.
      cbn in Hf; destruct Hf as (G1 & G2 & G3 & G4 & G5 & G6 & G7 & G8).
      rewrite <- G6, <- G7 in Hus'.
      destruct (IH w4 Hus' ltac:(congruence) ltac:(congruence) ltac:(congruence)
                  ltac:(congruence)) as [Hok' (H1 & H2 & H3 & H4 & H5 & H6 & H7 & H8)].
      split; [exact Hok'|]; unfold unchanged_but_diagnostics; repeat split; congruence. }
  assert (Ha2 : Forall (fun u => thresholdMs (mon w2) <= u - lastActivity (mon w2)) after).
  { rewrite P5, P6, F6, F7; exact Ha. }
  destruct (Hafter after w2 Ha2 P7 P4 P2 P3) as [_ (A1 & A2 & A3 & A4 & A5 & A6 & A7 & A8)].
  assert (Hstep : run_evals call (t :: after) w1 = run_evals call after w2)
    by (cbn [run_evals]; unfold bind; rewrite Hrun2; reflexivity).
  assert (Hstep' : run_evals call [t] w1 = (Ok tt, w2))
    by (cbn [run_evals]; unfold bind; rewrite Hrun2; reflexivity).
  rewrite !run_evals_app, Hrun1, Hstep, Hstep'; cbn [snd].
  repeat split; congruence.
Qed.

(** C6: [markActivity(timestamp)] always sets [lastActivity] to
    [timestamp]; it clears [pausedByIdle], starts the timer and notifies
    exactly when the timer is stopped and [pausedByIdle] is set, and
    otherwise changes nothing else. *)
Theorem markActivity_spec (w : World) (clock ts : Q) :
  let w' := snd (markActivity clock ts w) in
  fst (markActivity clock ts w) = Ok tt /\
  lastActivity (mon w') = ts /\
  if negb (isRunning (tmr w)) && pausedByIdle (mon w) then
    tmr w' = Timer.start clock (tmr w) /\ isRunning (tmr w') = true /\
    pausedByIdle (mon w') = false /\ trace w' = trace w ++ [ETimerStart; ENotify] /\
    mon w' = set_pausedByIdle false (set_lastActivity ts (mon w)) /\ pending w' = pending w
  else
    w' = mkWorld (set_lastActivity ts (mon w)) (tmr w) (trace w) (pending w).
Proof.
  destruct w as [[pb ev la ls le th hp] [[s|] acc] tr pe]; st_unfold; st_split;
    repeat split; try reflexivity; try discriminate.
  rewrite <- app_assoc; reflexivity.
Qed.

(** C7: when the provider yields a finite [idleSeconds >= 0] with
    [idleSeconds * 1000 < thresholdMs], an [evaluate()] of a running timer
    leaves the timer untouched (no pause), sets [lastActivity] to its [now]
    and uses the system value as the effective idle time, whatever the
    local inactivity. *)
Theorem system_idle_overrides_local (w : World) (now clock : Q) (call : ProviderCall) (q : Q) :
  hasProvider (mon w) = true -> evaluating (mon w) = false ->
  (call = PReturns (JNum q) \/ call = PPromise (Resolves (JNum q))) ->
  0 <= q -> q * 1000 < thresholdMs (mon w) ->
  isRunning (tmr w) = true ->
  let w' := snd (evaluate now clock call w) in
  tmr w' = tmr w /\ trace w' = trace w ++ [EQuery] /\
  pausedByIdle (mon w') = pausedByIdle (mon w) /\
  lastActivity (mon w') = now /\
  lastSystemIdleMs (mon w') = Some (q * 1000) /\
  lastEffectiveIdleMs (mon w') = q * 1000.
Proof.
  destruct w as [[pb ev la ls le th hp] [[s|] acc] tr pe]; cbn;
    intros Hp He Hc Hq Hlt Hr; subst; try discriminate;
    destruct Hc as [Hc|Hc]; subst call; st_crush.
Qed.

(** C8: [clearAutoPause()] never touches the timer (in particular never
    calls [timer.start()]); it sets [lastActivity] to the current instant
    and [lastEffectiveIdleMs] to 0, and clears [pausedByIdle] and notifies
    exactly when [pausedByIdle] was set. *)
Theorem clearAutoPause_spec (w : World) (clock : Q) :
  let w' := snd (clearAutoPause clock w) in
  fst (clearAutoPause clock w) = Ok tt /\
  tmr w' = tmr w /\
  lastActivity (mon w') = clock /\ lastEffectiveIdleMs (mon w') = 0 /\
  pausedByIdle (mon w') = false /\
  trace w' = trace w ++ (if pausedByIdle (mon w) then [ENotify] else []) /\
  evaluating (mon w') = evaluating (mon w) /\ pending w' = pending w.
Proof.
  destruct w as [[pb ev la ls le th hp] [[s|] acc] tr pe]; st_unfold; st_split;
    repeat split; try reflexivity; rewrite app_nil_r; reflexivity.
Qed.

(** *** The [enabled] gate (spec-modelled inactivityMonitor.ts) *)








(** *** Witnesses: the hypotheses of the claims hold at concrete inputs *)


Lemma paused_by_idle_implies_not_running_witness :
  reachable scenario_autopaused /\ pausedByIdle (mon scenario_autopaused) = true /\
  isRunning (tmr scenario_autopaused) = false.
Proof.
  assert (Hr : reachable scenario_autopaused)
    by (apply reach_eval_start, reach_mark, reach_init).
  split; [exact Hr|].
  assert (Hp : pausedByIdle (mon scenario_autopaused) = true) by (vm_compute; reflexivity).
  split; [exact Hp|].
  exact (paused_by_idle_implies_not_running scenario_autopaused Hr Hp).
Defined.

Lemma evaluate_never_fails_guard_cleared_witness :
  reachable scenario_suspended /\
  fst (evaluate_resume 2000 scenario_suspended) = Ok tt /\
  evaluating (mon (snd (evaluate_resume 2000 scenario_suspended))) = false.
Proof.
  assert (Hr : reachable scenario_suspended)
    by (apply reach_eval_start, reach_init).
  split; [exact Hr|].
  destruct (evaluate_never_fails_guard_cleared scenario_suspended Hr 2000 2000 PThrows)
    as (_ & _ & _ & H1 & H2 & _).
  split; [exact H1 | exact H2].
Defined.

Lemma evaluate_reentrant_noop_witness :
  evaluating (mon scenario_suspended) = true /\
  evaluate_start 2000 (PReturns (JNum 0)) scenario_suspended = (Ok Done, scenario_suspended).
Proof.
  assert (He : evaluating (mon scenario_suspended) = true) by (vm_compute; reflexivity).
  split; [exact He|].
  exact (proj1 (evaluate_reentrant_noop scenario_suspended 2000 2000 (PReturns (JNum 0)) He)).
Defined.

Lemma auto_pause_exactly_once_witness :
  trace (snd (run_evals PThrows ([500] ++ 1500 :: [2000; 3000]) scenario_local)) =
    trace scenario_local ++ [ETimerPause; ENotify].
Proof.
  destruct (auto_pause_exactly_once scenario_local PThrows [500] 1500 [2000; 3000])
    as (_ & _ & H & _).
  - vm_compute; reflexivity.
  - reflexivity.
  - reflexivity.
  - reflexivity.
  - repeat constructor; vm_compute; reflexivity.
  - vm_compute; discriminate.
  - repeat constructor; vm_compute; discriminate.
  - exact H.
Defined.

Lemma system_idle_overrides_local_witness :
  let w := construct (Timer.start 0 Timer.init) 0 1000 true in
  tmr (snd (evaluate 5000 5000 (PReturns (JNum (1#2))) w)) = tmr w.
Proof.
  intros w.
  destruct (system_idle_overrides_local w 5000 5000 (PReturns (JNum (1#2))) (1#2))
    as (H & _).
  - reflexivity.
  - reflexivity.
  - left; reflexivity.
  - vm_compute; discriminate.
  - vm_compute; reflexivity.
  - reflexivity.
  - exact H.
Defined.

(** *** The Timer over sequences of operations *)

Lemma elapsed_monotone_aux (c1 c2 : Q) (t : Timer) :
  c1 <= c2 -> Timer.getElapsedMs c1 t <= Timer.getElapsedMs c2 t.
Proof.
  destruct t as [[s|] acc]; cbn; intros; lra.
Qed.

(** X1: [start] and [pause] never change the elapsed time shown at the
    instant they are made. *)
Theorem elapsed_start_pause_now (c : Q) (t : Timer) :
  Timer.getElapsedMs c (Timer.start c t) == Timer.getElapsedMs c t /\
  Timer.getElapsedMs c (Timer.pause c t) == Timer.getElapsedMs c t.
Proof.
  destruct t as [[s|] acc]; cbn; split; ring.
Qed.

(** X2: for a fixed timer state, the elapsed time never decreases as the
    clock advances. *)
Theorem elapsed_monotone (c1 c2 : Q) (t : Timer) :
  c1 <= c2 -> Timer.getElapsedMs c1 t <= Timer.getElapsedMs c2 t.
Proof.
  apply elapsed_monotone_aux.
Qed.

Lemma timer_step_sane c0 c op t :
  timer_sane c0 t -> c0 <= c -> timer_sane c (timer_step c op t).
Proof.
  unfold timer_sane; destruct t as [[s|] acc]; destruct op; cbn; intros [H1 H2] H3;
    split; lra.
Qed.

Lemma elapsed_step_now c op t :
  op <> TReset -> Timer.getElapsedMs c (timer_step c op t) == Timer.getElapsedMs c t.
Proof.
  destruct t as [[s|] acc]; destruct op; cbn; intros H; try ring; now destruct H.
Qed.

(** X3: from a sane timer, any sequence of [start], [pause] and [reset]
    made with a clock that never goes back gives a sane timer: its total
    is non-negative and its elapsed time is non-negative from the last
    operation on. *)
Theorem timer_run_nonnegative (ops : list (Q * TimerOp)) (c0 : Q) (t : Timer) :
  timer_sane c0 t -> clocks_from c0 ops ->
  timer_sane (last_clock c0 ops) (run_timer ops t) /\
  forall c, last_clock c0 ops <= c -> 0 <= Timer.getElapsedMs c (run_timer ops t).
Proof.
  revert c0 t; induction ops as [|[c op] ops IH]; intros c0 t Hs Hc.
  - split; [exact Hs|]. intros c Hle.
    destruct t as [[s|] acc]; unfold timer_sane in Hs; cbn in *; lra.
  - destruct Hc as [Hle Hc]; cbn.
    apply IH; [|exact Hc]. eapply timer_step_sane; eassumption.
Qed.

(** X4: without [reset], the elapsed time never decreases along a
    sequence of [start] and [pause] with a clock that never goes back. *)
Theorem timer_run_no_reset_monotone (ops : list (Q * TimerOp)) (c0 c : Q) (t : Timer) :
  ~ In TReset (map snd ops) -> clocks_from c0 ops -> last_clock c0 ops <= c ->
  Timer.getElapsedMs c0 t <= Timer.getElapsedMs c (run_timer ops t).
Proof.
  revert c0 t; induction ops as [|[c1 op] ops IH]; intros c0 t Hn Hc Hl; cbn in *.
  - apply (elapsed_monotone_aux c0 c t Hl).
  - destruct Hc as [Hle Hc].
    assert (Hop : op <> TReset) by (intros ->; apply Hn; left; reflexivity).
    pose proof (elapsed_step_now c1 op t Hop).
    pose proof (elapsed_monotone_aux c0 c1 t Hle).
    pose proof (IH c1 (timer_step c1 op t) (fun H => Hn (or_intror H)) Hc Hl).
    lra.
Qed.

(** X5: a second [start] of a running timer and a second [pause] of a
    paused one change nothing, and a start/pause/start cycle from a paused
    timer adds exactly the two running intervals to its total. *)
Theorem timer_pause_resume_accumulates (t : Timer) (c1 c2 c3 c4 c' : Q) :
  isRunning t = false ->
  Timer.start c' (Timer.start c1 t) = Timer.start c1 t /\
  Timer.pause c' (Timer.pause c2 (Timer.start c1 t)) = Timer.pause c2 (Timer.start c1 t) /\
  Timer.getElapsedMs c4 (Timer.start c3 (Timer.pause c2 (Timer.start c1 t))) ==
    accumulatedMs t + (c2 - c1) + (c4 - c3).
Proof.
  destruct t as [[s|] acc]; cbn; intros H; try discriminate.
  repeat split; ring.
Qed.

(** *** formatElapsed *)

Lemma pad_check_all : forallb (fun n => pad_check (Z.of_nat n)) (seq 0 100) = true.
Proof. vm_compute. reflexivity. Qed.

Lemma pad_two_digits (v : Z) :
  (0 <= v < 100)%Z ->
  exists a b, Format.pad v = String a (String b EmptyString) /\ Format.two_digits a b = Some v.
Proof.
  intros Hv.
  assert (Hc : pad_check v = true).
  { rewrite <- (Z2Nat.id v) by lia.
    apply (proj1 (forallb_forall _ _) pad_check_all).
    apply in_seq; lia. }
  unfold pad_check in Hc.
  destruct (Format.pad v) as [|a [|b [|c r]]]; try discriminate.
  destruct (Format.two_digits a b) as [x|] eqn:E; [|discriminate].
  apply Z.eqb_eq in Hc; subst x. eauto.
Qed.

Lemma Qfloor_bounds (x : Q) (lo hi : Z) :
  inject_Z lo <= x -> x < inject_Z hi -> (lo <= Qfloor x < hi)%Z.
Proof.
  intros H1 H2.
  pose proof (Qfloor_le x) as F1. pose proof (Qlt_floor x) as F2.
  split.
  - assert (inject_Z lo < inject_Z (Qfloor x + 1)) as H by lra.
    rewrite <- Zlt_Qlt in H; lia.
  - assert (inject_Z (Qfloor x) < inject_Z hi) as H by lra.
    rewrite <- Zlt_Qlt in H; lia.
Qed.

Lemma parse_hms_dash (a : ascii) (r : string) :
  Format.parse_hms (String a (String "-" r)) = None.
Proof.
  unfold Format.parse_hms.
  do 6 (destruct r as [|? r]; [reflexivity|]).
  destruct r; [|reflexivity].
  destruct (_ && _); [|reflexivity].
  unfold Format.two_digits at 1.
  destruct (Format.digit_val a); reflexivity.
Qed.

(** X6: below 100 hours, [formatElapsed] shows exactly the whole seconds
    elapsed: its ["HH:MM:SS"] reads back as [Math.floor(ms / 1000)]. *)
Theorem formatElapsed_round_trip (ms : Q) :
  0 <= ms -> ms < 360000000 ->
  Format.parse_hms (Format.formatElapsed ms) = Some (Qfloor (ms / 1000)).
Proof.
  intros H0 H1.
  assert (Hb : (0 <= Qfloor (ms / 1000) < 360000)%Z).
  { apply Qfloor_bounds.
    - unfold inject_Z; apply Qle_shift_div_l; [reflexivity|]; lra.
    - unfold inject_Z; apply Qlt_shift_div_r; [reflexivity|]; lra. }
  unfold Format.formatElapsed.
  set (ts := Qfloor (ms / 1000)) in *; clearbody ts.
  rewrite !Z.rem_mod_nonneg by lia.
  destruct (pad_two_digits (ts / 3600)%Z) as (h1 & h2 & Eh & Dh);
    [Z.div_mod_to_equations; lia|].
  destruct (pad_two_digits (ts mod 3600 / 60)%Z) as (m1 & m2 & Em & Dm);
    [Z.div_mod_to_equations; lia|].
  destruct (pad_two_digits (ts mod 60)%Z) as (s1 & s2 & Es & Ds);
    [Z.div_mod_to_equations; lia|].
  rewrite Eh, Em, Es; cbn. rewrite Dh, Dm, Ds. f_equal. Z.div_mod_to_equations; lia.
Qed.

(** X7: a negative elapsed time (a clock before the start) is shown as
    ["0-..."], which is not a valid ["HH:MM:SS"] display. *)
Theorem formatElapsed_negative (ms : Q) :
  ms < 0 ->
  exists rest, Format.formatElapsed ms = String "0" (String "-" rest) /\
               Format.parse_hms (Format.formatElapsed ms) = None.
Proof.
  intros H.
  assert (Hn : (Qfloor (ms / 1000) < 0)%Z).
  { pose proof (Qfloor_le (ms / 1000)) as F.
    assert (ms / 1000 < 0) by (apply Qlt_shift_div_r; [reflexivity|]; lra).
    rewrite Zlt_Qlt; unfold inject_Z at 2; lra. }
  unfold Format.formatElapsed.
  set (ts := Qfloor (ms / 1000)) in *; clearbody ts.
  assert (Hh : (ts / 3600 < 0)%Z) by (Z.div_mod_to_equations; lia).
  unfold Format.pad at 1.
  replace (Z.ltb (ts / 3600) 10) with true by (symmetry; apply Z.ltb_lt; lia).
  destruct (ts / 3600)%Z as [|p|p]; try lia.
  eexists; split; [reflexivity|].
  apply parse_hms_dash.
Qed.

(** *** Settings *)

Lemma js_round_Z (z : Z) : Settings.js_round (inject_Z z) = z.
Proof.
  unfold Settings.js_round.
  assert (H : (z <= Qfloor (inject_Z z + (1 # 2)) < z + 1)%Z).
  { apply Qfloor_bounds; [lra|]; rewrite inject_Z_plus; change (inject_Z 1) with 1; lra. }
  lia.
Qed.

Lemma clamp_range (v : Settings.Num) : (1 <= Settings.clampIdleDelaySeconds v <= 1800)%Z.
Proof.
  destruct v; unfold Settings.clampIdleDelaySeconds;
    [lia|cbn; unfold Settings.DEFAULT_IDLE_DELAY_SECONDS; lia..].
Qed.

(** X8: every idle delay the settings code produces, loaded from storage
    (whatever it holds) or committed from the form, lies in [1, 1800]
    seconds; committing never changes [afkHandlingEnabled]. *)
Theorem settings_delay_in_range :
  (forall st, (1 <= Settings.afkIdleDelaySeconds (Settings.loadSettings st) <= 1800)%Z) /\
  (forall inp s s', Settings.commitThresholdChange inp s = Some s' ->
     (1 <= Settings.afkIdleDelaySeconds s' <= 1800)%Z /\
     Settings.afkHandlingEnabled s' = Settings.afkHandlingEnabled s).
Proof.
  split.
  - intros [| |e n]; cbn; unfold Settings.DEFAULT_IDLE_DELAY_SECONDS; try lia.
    destruct (Settings.isFinite n); cbn; [apply clamp_range|lia].
  - intros [|n] s s' H; [discriminate|].
    pose proof (clamp_range n) as Hr.
    destruct n; cbn in H; try discriminate;
      injection H as <-; cbn in Hr |- *; (split; [exact Hr|reflexivity]).
Qed.

(** X9: [clampIdleDelaySeconds] keeps an integer already in [1, 1800] and
    is monotone on finite numbers. *)
Theorem clamp_fixes_and_monotone :
  (forall z, (1 <= z <= 1800)%Z -> Settings.clampIdleDelaySeconds (Settings.Fin (inject_Z z)) = z) /\
  (forall q1 q2, q1 <= q2 ->
     (Settings.clampIdleDelaySeconds (Settings.Fin q1) <=
      Settings.clampIdleDelaySeconds (Settings.Fin q2))%Z).
Proof.
  split.
  - intros z Hz; unfold Settings.clampIdleDelaySeconds; rewrite js_round_Z; lia.
  - intros q1 q2 H; unfold Settings.clampIdleDelaySeconds, Settings.js_round.
    assert (Qfloor (q1 + (1 # 2)) <= Qfloor (q2 + (1 # 2)))%Z
      by (apply Qfloor_resp_le; lra).
    lia.
Qed.

(** X10: settings written by [persistSettings] with a delay in [1, 1800]
    are read back unchanged by [loadSettings]. *)
Theorem persist_load_round_trip (s : Settings.SettingsState) :
  (1 <= Settings.afkIdleDelaySeconds s <= 1800)%Z ->
  Settings.loadSettings (Settings.stored_of s) = s.
Proof.
  destruct s as [en d]; cbn [Settings.afkIdleDelaySeconds]; intros Hd.
  unfold Settings.loadSettings, Settings.stored_of, Settings.isFinite,
    Settings.clampIdleDelaySeconds.
  rewrite js_round_Z; cbn [Settings.afkIdleDelaySeconds Settings.afkHandlingEnabled];
    f_equal; lia.
Qed.

(** X11: [commitThresholdChange] ignores a blank or non-numeric entry; an
    infinite parsed value falls back to the default 60 seconds, while a
    finite value of at least 1800 is clamped to 1800 and one below 1 to 1. *)
Theorem commitThresholdChange_edges (s : Settings.SettingsState) :
  Settings.commitThresholdChange Settings.BlankInput s = None /\
  Settings.commitThresholdChange (Settings.ParsedInput Settings.NaN) s = None /\
  Settings.commitThresholdChange (Settings.ParsedInput Settings.PosInf) s =
    Some (Settings.mkSettings (Settings.afkHandlingEnabled s) Settings.DEFAULT_IDLE_DELAY_SECONDS) /\
  Settings.commitThresholdChange (Settings.ParsedInput Settings.NegInf) s =
    Some (Settings.mkSettings (Settings.afkHandlingEnabled s) Settings.DEFAULT_IDLE_DELAY_SECONDS) /\
  (forall q, 1800 <= q ->
     Settings.commitThresholdChange (Settings.ParsedInput (Settings.Fin q)) s =
       Some (Settings.mkSettings (Settings.afkHandlingEnabled s) 1800)) /\
  (forall q, q < 1 ->
     Settings.commitThresholdChange (Settings.ParsedInput (Settings.Fin q)) s =
       Some (Settings.mkSettings (Settings.afkHandlingEnabled s) 1)).
Proof.
  repeat split; intros q Hq;
    unfold Settings.commitThresholdChange, Settings.clampIdleDelaySeconds, Settings.js_round.
  - assert (1800 <= Qfloor (q + (1 # 2)))%Z.
    { rewrite <- (Qfloor_Z 1800); apply Qfloor_resp_le; unfold inject_Z; lra. }
    do 2 f_equal; lia.
  - assert (Qfloor (q + (1 # 2)) < 2)%Z.
    { pose proof (Qfloor_le (q + (1 # 2))). rewrite Zlt_Qlt; unfold inject_Z at 2; lra. }
    do 2 f_equal; lia.
Qed.

(** *** The monitor and the timer controls *)

Ltac ui_unfold :=
  unfold onStartPauseClick, onResetClick, handleUserActivity, timer_reset, Timer.reset in *.

(** X12: a timer paused by the user stays paused: no operation of the
    monitor ([markActivity], [clearAutoPause], either part of [evaluate()])
    starts it or marks it as paused by inactivity. *)
Theorem manual_pause_sticks (w : World) :
  manually_paused w ->
  (forall clock ts, manually_paused (snd (markActivity clock ts w))) /\
  (forall clock, manually_paused (snd (clearAutoPause clock w))) /\
  (forall now call, manually_paused (snd (evaluate_start now call w))) /\
  (forall clock, manually_paused (snd (evaluate_resume clock w))).
Proof.
  destruct w as [[pb ev la ls le th hp] [[s|] acc] tr pe]; unfold manually_paused; cbn;
    intros [Hr Hp]; try discriminate; subst;
    destruct ev, hp, pe as [[n0 [[q0| |]|]]|]; repeat split; intros;
    try destruct call as [|[q1| |]|[[q1| |]|]]; st_unfold; st_split_q; st_split; st_finish.
Qed.

Lemma onStartPauseClick_paused_inv w clock :
  paused_inv w -> paused_inv (snd (onStartPauseClick clock w)).
Proof.
  destruct w as [[pb ev la ls le th hp] [[s|] acc] tr pe]; unfold paused_inv; ui_unfold; st_crush.
Qed.

Lemma onResetClick_paused_inv w clock :
  paused_inv w -> paused_inv (snd (onResetClick clock w)).
Proof.
  destruct w as [[pb ev la ls le th hp] [[s|] acc] tr pe]; unfold paused_inv; ui_unfold; st_crush.
Qed.

(** X13: with the start/pause and reset buttons of the UI also in use,
    a monitor that says the timer is paused by inactivity still has a
    stopped timer. *)
Theorem reachable_ui_paused_inv (w : World) :
  reachable_ui w -> pausedByIdle (mon w) = true -> isRunning (tmr w) = false.
Proof.
  intros H; change (paused_inv w); induction H.
  - unfold paused_inv; cbn; discriminate.
  - now apply markActivity_paused_inv.
  - now apply evaluate_start_paused_inv.
  - now apply evaluate_resume_paused_inv.
  - now apply clearAutoPause_paused_inv.
  - now apply onStartPauseClick_paused_inv.
  - now apply onResetClick_paused_inv.
Qed.

(** X14: a click on start/pause toggles the timer, leaves it not paused by
    inactivity, records the click as activity, and notifies only when it
    cancels an automatic pause. *)
Theorem onStartPauseClick_toggles (w : World) (clock : Q) :
  let w' := snd (onStartPauseClick clock w) in
  fst (onStartPauseClick clock w) = Ok tt /\
  isRunning (tmr w') = negb (isRunning (tmr w)) /\
  pausedByIdle (mon w') = false /\
  lastActivity (mon w') = clock /\ lastEffectiveIdleMs (mon w') = 0 /\
  trace w' = trace w ++ (if isRunning (tmr w) then [ETimerPause] else [ETimerStart]) ++
                        (if pausedByIdle (mon w) then [ENotify] else []).
Proof.
  destruct w as [[pb ev la ls le th hp] [[s|] acc] tr pe]; ui_unfold; st_unfold; st_split;
    repeat split; try reflexivity; rewrite <- ?app_assoc; reflexivity.
Qed.

(** X15: a click on reset leaves a stopped timer showing 0 at every later
    instant, paused by the user and not by inactivity. *)
Theorem onResetClick_spec (w : World) (clock c : Q) :
  let w' := snd (onResetClick clock w) in
  fst (onResetClick clock w) = Ok tt /\
  Timer.getElapsedMs c (tmr w') = 0 /\ manually_paused w' /\
  lastActivity (mon w') = clock /\
  trace w' = trace w ++ (if pausedByIdle (mon w) then [ENotify] else []).
Proof.
  destruct w as [[pb ev la ls le th hp] [[s|] acc] tr pe]; unfold manually_paused;
    ui_unfold; st_unfold; st_split; repeat split; try reflexivity; rewrite ?app_nil_r; reflexivity.
Qed.

(** X16: a provider answer that is not trusted (a throw, a rejection, a
    value that is not a finite non-negative number) gives the same timer,
    the same monitor fields and the same timer and notification effects as
    a monitor without provider. *)
Theorem invalid_answer_like_no_provider (w : World) (now : Q) (call : ProviderCall) :
  hasProvider (mon w) = true -> evaluating (mon w) = false -> pending w = None ->
  invalid_answer call ->
  let w1 := snd (evaluate now now call w) in
  let w2 := snd (evaluate now now PThrows (without_provider w)) in
  tmr w1 = tmr w2 /\ mon (without_provider w1) = mon w2 /\ pending w1 = pending w2 /\
  filter is_transition_event (trace w1) = filter is_transition_event (trace w2).
Proof.
  destruct w as [[pb ev la ls le th hp] [[s|] acc] tr pe]; cbn;
    intros Hp He Hpe Hinv; subst; unfold invalid_answer, idle_ms_of in Hinv;
    destruct pb, call as [|[q1| |]|[[q1| |]|]]; cbn in Hinv;
    try (destruct (Qle_bool 0 q1); discriminate);
    unfold without_provider; st_unfold; st_split_q; st_split; q_facts;
    rewrite ?filter_app; cbn; rewrite ?app_nil_r; repeat split; try reflexivity;
    try congruence; try (exfalso; lra).
Qed.

(** X17: a system idle time at or above the threshold pauses a running
    timer, however recent the locally recorded activity. *)
Theorem system_idle_pauses_despite_recent_activity (w : World) (now clock q : Q)
    (call : ProviderCall) :
  hasProvider (mon w) = true -> evaluating (mon w) = false ->
  (call = PReturns (JNum q) \/ call = PPromise (Resolves (JNum q))) ->
  0 <= q -> thresholdMs (mon w) <= q * 1000 ->
  isRunning (tmr w) = true ->
  let w' := snd (evaluate now clock call w) in
  tmr w' = Timer.pause clock (tmr w) /\ pausedByIdle (mon w') = true /\
  lastActivity (mon w') = lastActivity (mon w) /\
  lastEffectiveIdleMs (mon w') = q * 1000 /\
  evaluating (mon w') = false /\
  trace w' = trace w ++ [EQuery; ETimerPause; ENotify].
Proof.
  destruct w as [[pb ev la ls le th hp] [[s|] acc] tr pe]; cbn;
    intros Hp He Hc Hq Hle Hr; subst; try discriminate;
    destruct Hc as [Hc|Hc]; subst call; st_unfold; st_split_q; st_split; q_facts;
    repeat split; try reflexivity; try (exfalso; lra); rewrite <- !app_assoc; reflexivity.
Qed.

(** X18: after an automatic pause, a system idle time below the threshold
    restarts the timer, clears the automatic pause, records [now] as the
    last activity and notifies once. *)
Theorem system_activity_resumes_auto_pause (w : World) (now clock q : Q)
    (call : ProviderCall) :
  hasProvider (mon w) = true -> evaluating (mon w) = false ->
  (call = PReturns (JNum q) \/ call = PPromise (Resolves (JNum q))) ->
  0 <= q -> q * 1000 < thresholdMs (mon w) ->
  isRunning (tmr w) = false -> pausedByIdle (mon w) = true ->
  let w' := snd (evaluate now clock call w) in
  tmr w' = Timer.start clock (tmr w) /\ pausedByIdle (mon w') = false /\
  lastActivity (mon w') = now /\
  lastEffectiveIdleMs (mon w') = q * 1000 /\
  evaluating (mon w') = false /\
  trace w' = trace w ++ [EQuery; ETimerStart; ENotify].
Proof.
  destruct w as [[pb ev la ls le th hp] [[s|] acc] tr pe]; cbn;
    intros Hp He Hc Hq Hlt Hr Hpb; subst; try discriminate;
    destruct Hc as [Hc|Hc]; subst call; st_unfold; st_split_q; st_split; q_facts;
    repeat split; try reflexivity; try (exfalso; lra); rewrite <- !app_assoc; reflexivity.
Qed.

(** *** Instances of the extra theorems *)
Lemma elapsed_monotone_witness :
  Timer.getElapsedMs 1 (Timer.start 0 Timer.init) <=
  Timer.getElapsedMs 5 (Timer.start 0 Timer.init).
Proof.
  apply (elapsed_monotone 1 5 (Timer.start 0 Timer.init)). vm_compute; first [reflexivity | discriminate].
Defined.

Lemma timer_run_nonnegative_witness :
  0 <= Timer.getElapsedMs 4 (run_timer [(1, TStart); (3, TPause); (4, TReset)] Timer.init).
Proof.
  apply (proj2 (timer_run_nonnegative [(1, TStart); (3, TPause); (4, TReset)] 0 Timer.init
                  (conj (Qle_refl 0) I) (conj (Qle_bool_imp_le 0 1 eq_refl)
                  (conj (Qle_bool_imp_le 1 3 eq_refl) (conj (Qle_bool_imp_le 3 4 eq_refl) I))))).
  vm_compute; first [reflexivity | discriminate].
Defined.

Lemma timer_run_no_reset_monotone_witness :
  Timer.getElapsedMs 0 Timer.init <=
  Timer.getElapsedMs 9 (run_timer [(1, TStart); (3, TPause); (4, TStart)] Timer.init).
Proof.
  apply (timer_run_no_reset_monotone [(1, TStart); (3, TPause); (4, TStart)] 0 9 Timer.init).
  - cbn; intros [H|[H|[H|[]]]]; discriminate.
  - cbn; repeat split; vm_compute; first [reflexivity | discriminate].
  - vm_compute; first [reflexivity | discriminate].
Defined.

Lemma timer_pause_resume_accumulates_witness :
  Timer.getElapsedMs 10 (Timer.start 6 (Timer.pause 3 (Timer.start 1 Timer.init))) == 6.
Proof.
  destruct (timer_pause_resume_accumulates Timer.init 1 3 6 10 2 eq_refl) as (_ & _ & H).
  rewrite H. reflexivity.
Defined.

Lemma formatElapsed_round_trip_witness :
  Format.parse_hms (Format.formatElapsed 3723500) = Some 3723%Z.
Proof.
  apply (formatElapsed_round_trip 3723500); vm_compute; first [reflexivity | discriminate].
Defined.

Lemma formatElapsed_negative_witness :
  exists rest, Format.formatElapsed (-1500) = String "0" (String "-" rest) /\
               Format.parse_hms (Format.formatElapsed (-1500)) = None.
Proof.
  apply formatElapsed_negative. vm_compute; reflexivity.
Defined.

Lemma persist_load_round_trip_witness :
  Settings.loadSettings (Settings.stored_of (Settings.mkSettings false 300)) =
  Settings.mkSettings false 300.
Proof.
  apply persist_load_round_trip; cbn; lia.
Defined.

Lemma manual_pause_sticks_witness :
  manually_paused (snd (evaluate_start 5000 PThrows (construct Timer.init 0 1000 false))).
Proof.
  apply (manual_pause_sticks (construct Timer.init 0 1000 false)).
  split; reflexivity.
Defined.

Lemma reachable_ui_paused_inv_witness :
  isRunning (tmr scenario_autopaused) = false.
Proof.
  apply reachable_ui_paused_inv.
  - apply ui_eval_start, ui_mark, ui_init.
  - vm_compute; reflexivity.
Defined.

Lemma invalid_answer_like_no_provider_witness :
  let w := construct (Timer.start 0 Timer.init) 0 1000 true in
  tmr (snd (evaluate 1500 1500 (PReturns (JNum (-1))) w)) =
  tmr (snd (evaluate 1500 1500 PThrows (without_provider w))).
Proof.
  intros w.
  destruct (invalid_answer_like_no_provider w 1500 (PReturns (JNum (-1)))) as (H & _).
  - reflexivity.
  - reflexivity.
  - reflexivity.
  - vm_compute; reflexivity.
  - exact H.
Defined.

Lemma system_idle_pauses_despite_recent_activity_witness :
  let w := construct (Timer.start 0 Timer.init) 100 1000 true in
  pausedByIdle (mon (snd (evaluate 100 100 (PReturns (JNum 5)) w))) = true.
Proof.
  intros w.
  destruct (system_idle_pauses_despite_recent_activity w 100 100 5 (PReturns (JNum 5)))
    as (_ & H & _).
  - reflexivity.
  - reflexivity.
  - left; reflexivity.
  - vm_compute; first [reflexivity | discriminate].
  - vm_compute; first [reflexivity | discriminate].
  - reflexivity.
  - exact H.
Defined.

Lemma system_activity_resumes_auto_pause_witness :
  let w := snd (evaluate_start 1500 PThrows
                  (snd (markActivity 0 0 (construct (Timer.start 0 Timer.init) 0 1000 true)))) in
  isRunning (tmr (snd (evaluate 2000 2000 (PReturns (JNum 0)) w))) = true.
Proof.
  intros w.
  destruct (system_activity_resumes_auto_pause w 2000 2000 0 (PReturns (JNum 0)))
    as (H & _).
  - reflexivity.
  - reflexivity.
  - left; reflexivity.
  - vm_compute; first [reflexivity | discriminate].
  - vm_compute; reflexivity.
  - reflexivity.
  - reflexivity.
  - rewrite H; reflexivity.
Defined.
